(** * Package [indicators]: base abstractions shared by every indicator

    A shallow embedding of [indicators/indicators.go]: the bounds
    trackers, the base indicator state, the time-period decorator, the
    two composite bases, the package-level error values and lookback
    limits, and the table of value-available callback types.

    Conventions of the embedding.
    - Go's [int] and [int64] are integers of [Z]; the file performs no
      arithmetic on them (values are stored and read back), so no
      wrap-around is ever involved.  The 64-bit range is [math.is_int64].
    - Go's [float64] is IEEE-754 binary64, embedded as [spec_float] with
      precision 53 and [emax] 1024; comparisons are [SFltb] and [SFeqb],
      which are false on NaN exactly as Go's [<], [>] and [==] are.
    - A Go pointer [*T] is an [option T]: [None] is [nil], and [Some s]
      points at a struct whose current contents are [s].  Every
      constructor of the file returns the address of a fresh local, so no
      two pointers alias.
    - A method with a pointer receiver returns [option]: [None] is the
      run-time panic of dereferencing a [nil] receiver. *)

From Stdlib Require Import String ZArith Bool List Lia.
From Stdlib Require Import Floats.SpecFloat.
Import ListNotations.
Local Open Scope Z_scope.

(** ** Go scalar types and the constants of package [math] *)

Definition int : Type := Z.
Definition int64 : Type := Z.
Definition float64 : Type := spec_float.

Abbreviation ptr := option (only parsing).

Module math.

(** [1<<63 - 1] and [-1 << 63]. *)
Definition MaxInt64 : int64 := 9223372036854775807.
Definition MinInt64 : int64 := -9223372036854775808.

Definition is_int64 (z : Z) : Prop := MinInt64 <= z <= MaxInt64.

Definition prec : Z := 53.
Definition emax : Z := 1024.

(** [0x1p1023 * (1 + (1 - 0x1p-52))], i.e. [(2^53 - 1) * 2^971]. *)
Definition MaxFloat64 : float64 := S754_finite false 9007199254740991 971.

(** [0x1p-1022 * 0x1p-52], i.e. [2^-1074], the least positive subnormal. *)
Definition SmallestNonzeroFloat64 : float64 := S754_finite false 1 (-1074).

(** A well-formed binary64 datum. *)
Definition is_float64 (f : float64) : Prop := valid_binary prec emax f = true.

Definition is_finite (f : float64) : bool :=
  match f with
  | S754_zero _ | S754_finite _ _ _ => true
  | S754_infinity _ | S754_nan => false
  end.

(** Go's [x < y], [x > y] and [x == y] on [float64]. *)
Definition flt (x y : float64) : bool := SFltb x y.
Definition fgt (x y : float64) : bool := SFltb y x.
Definition feq (x y : float64) : bool := SFeqb x y.

Definition fzero : float64 := S754_zero false.
(** [-1.0] is [-(2^52) * 2^-52]. *)
Definition fminus_one : float64 := S754_finite true 4503599627370496 (-52).

(** [x] is the greatest finite binary64 value. *)
Definition largest_float64 (x : float64) : Prop :=
  is_float64 x /\ is_finite x = true /\
  forall f, is_float64 f -> is_finite f = true -> SFleb f x = true.

(** [x] is the least binary64 value strictly above zero. *)
Definition smallest_positive_float64 (x : float64) : Prop :=
  is_float64 x /\ flt fzero x = true /\
  forall f, is_float64 f -> flt fzero f = true -> SFleb x f = true.

Definition largest_int64 (x : int64) : Prop :=
  is_int64 x /\ forall z, is_int64 z -> z <= x.

Definition smallest_int64 (x : int64) : Prop :=
  is_int64 x /\ forall z, is_int64 z -> x <= z.

End math.

(** ** Package [gotrade] *)

Module gotrade.

(** Modelled from the spec: the bar type [gotrade.DOHLCV], declared in
    the parent package and not in indicators.go.  The spec describes a
    bar as "OHLCV: open/high/low/close/volume per period"; the date is
    kept as an integer time stamp. *)
Record DOHLCV : Type := mkDOHLCV {
  D : Z;
  O : float64;
  H : float64;
  L : float64;
  C : float64;
  V : float64
}.

(** Modelled from the spec: [gotrade.DataSelectionFunc], "a capability
    of shape (bar) -> scalar". *)
Definition DataSelectionFunc : Type := DOHLCV -> float64.

End gotrade.

(** ** Package-level variables *)

(** [errors.New] yields four distinct error values; Go compares them by
    identity, which the constructors of [error] give. *)
Inductive error : Type :=
| ErrSourceDataEmpty
| ErrNotEnoughSourceDataForLookbackPeriod
| ErrLookbackPeriodMustBeGreaterThanZero
| ErrValueAvailableActionIsNil.

Definition Error (e : error) : string :=
  match e with
  | ErrSourceDataEmpty => "Source data is empty"
  | ErrNotEnoughSourceDataForLookbackPeriod =>
      "Source data does not contain enough data for the specfied lookback period"
  | ErrLookbackPeriodMustBeGreaterThanZero =>
      "Lookback period must be greater than 0"
  | ErrValueAvailableActionIsNil => "ValueAvailableAction cannot be empty"
  end.

(** The two limits are [var]s that nothing in the file assigns to; they
    are taken at their initialisers. *)
Definition MinimumLookbackPeriod : int := 0.
Definition MaximumLookbackPeriod : int := 100000.

(** ** The interfaces *)

Class Indicator (T : Type) : Type := {
  ValidFromBar : T -> option int;
  GetLookbackPeriod : T -> option int;
  Length : T -> option int
}.

Class IndicatorWithTimePeriod (T : Type) : Type := {
  GetTimePeriod : T -> option int
}.

(** [IndicatorWithFloatBounds] and [IndicatorWithIntBounds] declare the
    same two methods at result types [float64] and [int64]. *)
Class IndicatorWithBounds (V T : Type) : Type := {
  MinValue : T -> option V;
  MaxValue : T -> option V
}.

Abbreviation IndicatorWithFloatBounds := (IndicatorWithBounds float64).
Abbreviation IndicatorWithIntBounds := (IndicatorWithBounds int64).

(** ** The structs, each with its constructor and method set *)

Module baseFloatBounds.

Record t : Type := mk {
  minValue : float64;
  maxValue : float64
}.

Definition MinValue (ind : ptr t) : option float64 := option_map minValue ind.
Definition MaxValue (ind : ptr t) : option float64 := option_map maxValue ind.

End baseFloatBounds.

Definition newBaseFloatBounds : ptr baseFloatBounds.t :=
  let ind := {| baseFloatBounds.minValue := math.MaxFloat64;
                baseFloatBounds.maxValue := math.SmallestNonzeroFloat64 |} in
  Some ind.

Module baseIntBounds.

Record t : Type := mk {
  minValue : int64;
  maxValue : int64
}.

Definition MinValue (ind : ptr t) : option int64 := option_map minValue ind.
Definition MaxValue (ind : ptr t) : option int64 := option_map maxValue ind.

End baseIntBounds.

Definition newBaseIntBounds : ptr baseIntBounds.t :=
  let ind := {| baseIntBounds.minValue := math.MaxInt64;
                baseIntBounds.maxValue := math.MinInt64 |} in
  Some ind.

Module baseIndicator.

Record t : Type := mk {
  validFromBar : int;
  dataLength : int;
  selectData : option gotrade.DataSelectionFunc;
  lookbackPeriod : int
}.

Definition ValidFromBar (ind : ptr t) : option int := option_map validFromBar ind.
Definition GetLookbackPeriod (ind : ptr t) : option int := option_map lookbackPeriod ind.
Definition Length (ind : ptr t) : option int := option_map dataLength ind.

End baseIndicator.

(** The composite literal names two fields; [dataLength] and
    [selectData] take their zero values, [0] and [nil]. *)
Definition newBaseIndicator (lookbackPeriod : int) : ptr baseIndicator.t :=
  let ind := {| baseIndicator.lookbackPeriod := lookbackPeriod;
                baseIndicator.validFromBar := -1;
                baseIndicator.dataLength := 0;
                baseIndicator.selectData := None |} in
  Some ind.

Module baseIndicatorWithTimePeriod.

Record t : Type := mk {
  timePeriod : int
}.

Definition GetTimePeriod (ind : ptr t) : option int := option_map timePeriod ind.

End baseIndicatorWithTimePeriod.

Definition newBaseIndicatorWithTimePeriod (timePeriod : int)
  : ptr baseIndicatorWithTimePeriod.t :=
  let ind := {| baseIndicatorWithTimePeriod.timePeriod := timePeriod |} in
  Some ind.

(** A composite base embeds two pointers.  Go promotes the methods of
    the embedded types: a call on the composite dereferences the
    composite, then calls the method on the embedded pointer. *)
Definition promote {S A B : Type} (field : S -> ptr A) (method : ptr A -> option B)
    (ind : ptr S) : option B :=
  match ind with
  | Some s => method (field s)
  | None => None
  end.

Module baseIndicatorWithFloatBounds.

Record t : Type := mk {
  baseIndicator : ptr baseIndicator.t;
  baseFloatBounds : ptr baseFloatBounds.t
}.

Definition ValidFromBar := promote baseIndicator baseIndicator.ValidFromBar.
Definition GetLookbackPeriod := promote baseIndicator baseIndicator.GetLookbackPeriod.
Definition Length := promote baseIndicator baseIndicator.Length.
Definition MinValue := promote baseFloatBounds baseFloatBounds.MinValue.
Definition MaxValue := promote baseFloatBounds baseFloatBounds.MaxValue.

End baseIndicatorWithFloatBounds.

Definition newBaseIndicatorWithFloatBounds (lookbackPeriod : int)
  : ptr baseIndicatorWithFloatBounds.t :=
  let ind := {|
    baseIndicatorWithFloatBounds.baseIndicator := newBaseIndicator lookbackPeriod;
    baseIndicatorWithFloatBounds.baseFloatBounds := newBaseFloatBounds |} in
  Some ind.

Module baseIndicatorWithIntBounds.

Record t : Type := mk {
  baseIndicator : ptr baseIndicator.t;
  baseIntBounds : ptr baseIntBounds.t
}.

Definition ValidFromBar := promote baseIndicator baseIndicator.ValidFromBar.
Definition GetLookbackPeriod := promote baseIndicator baseIndicator.GetLookbackPeriod.
Definition Length := promote baseIndicator baseIndicator.Length.
Definition MinValue := promote baseIntBounds baseIntBounds.MinValue.
Definition MaxValue := promote baseIntBounds baseIntBounds.MaxValue.

End baseIndicatorWithIntBounds.

Definition newBaseIndicatorWithIntBounds (lookbackPeriod : int)
  : ptr baseIndicatorWithIntBounds.t :=
  let ind := {|
    baseIndicatorWithIntBounds.baseIndicator := newBaseIndicator lookbackPeriod;
    baseIndicatorWithIntBounds.baseIntBounds := newBaseIntBounds |} in
  Some ind.

(** ** Which pointer type implements which interface *)

#[export] Instance baseIndicator_Indicator : Indicator (ptr baseIndicator.t) := {|
  ValidFromBar := baseIndicator.ValidFromBar;
  GetLookbackPeriod := baseIndicator.GetLookbackPeriod;
  Length := baseIndicator.Length
|}.

#[export] Instance baseFloatBounds_Bounds
  : IndicatorWithFloatBounds (ptr baseFloatBounds.t) := {|
  MinValue := baseFloatBounds.MinValue;
  MaxValue := baseFloatBounds.MaxValue
|}.

#[export] Instance baseIntBounds_Bounds
  : IndicatorWithIntBounds (ptr baseIntBounds.t) := {|
  MinValue := baseIntBounds.MinValue;
  MaxValue := baseIntBounds.MaxValue
|}.

#[export] Instance baseIndicatorWithTimePeriod_TimePeriod
  : IndicatorWithTimePeriod (ptr baseIndicatorWithTimePeriod.t) := {|
  GetTimePeriod := baseIndicatorWithTimePeriod.GetTimePeriod
|}.

#[export] Instance baseIndicatorWithFloatBounds_Indicator
  : Indicator (ptr baseIndicatorWithFloatBounds.t) := {|
  ValidFromBar := baseIndicatorWithFloatBounds.ValidFromBar;
  GetLookbackPeriod := baseIndicatorWithFloatBounds.GetLookbackPeriod;
  Length := baseIndicatorWithFloatBounds.Length
|}.

#[export] Instance baseIndicatorWithFloatBounds_Bounds
  : IndicatorWithFloatBounds (ptr baseIndicatorWithFloatBounds.t) := {|
  MinValue := baseIndicatorWithFloatBounds.MinValue;
  MaxValue := baseIndicatorWithFloatBounds.MaxValue
|}.

#[export] Instance baseIndicatorWithIntBounds_Indicator
  : Indicator (ptr baseIndicatorWithIntBounds.t) := {|
  ValidFromBar := baseIndicatorWithIntBounds.ValidFromBar;
  GetLookbackPeriod := baseIndicatorWithIntBounds.GetLookbackPeriod;
  Length := baseIndicatorWithIntBounds.Length
|}.

#[export] Instance baseIndicatorWithIntBounds_Bounds
  : IndicatorWithIntBounds (ptr baseIndicatorWithIntBounds.t) := {|
  MinValue := baseIndicatorWithIntBounds.MinValue;
  MaxValue := baseIndicatorWithIntBounds.MaxValue
|}.

(** ** The value-available callback types *)

(** Parameter types occurring in the callback signatures. *)
Inductive GoType : Type := Tfloat64 | Tint64 | Tint | TDOHLCV.

(** One constructor per [type ValueAvailableAction... func(...)]
    declaration, in source order. *)
Inductive ValueAvailableAction : Type :=
| ValueAvailableActionFloat
| ValueAvailableActionInt
| ValueAvailableActionDOHLCV
| ValueAvailableActionBollinger
| ValueAvailableActionMACD
| ValueAvailableActionAroon
| ValueAvailableActionStoch
| ValueAvailableActionLinearReg.

Definition declaredActions : list ValueAvailableAction :=
  [ ValueAvailableActionFloat; ValueAvailableActionInt;
    ValueAvailableActionDOHLCV; ValueAvailableActionBollinger;
    ValueAvailableActionMACD; ValueAvailableActionAroon;
    ValueAvailableActionStoch; ValueAvailableActionLinearReg ].

(** The parameter list of each declaration; the last parameter is
    always [streamBarIndex int]. *)
Definition signature (a : ValueAvailableAction) : list GoType :=
  match a with
  | ValueAvailableActionFloat => [Tfloat64; Tint]
  | ValueAvailableActionInt => [Tint64; Tint]
  | ValueAvailableActionDOHLCV => [TDOHLCV; Tint]
  | ValueAvailableActionBollinger => [Tfloat64; Tfloat64; Tfloat64; Tint]
  | ValueAvailableActionMACD => [Tfloat64; Tfloat64; Tfloat64; Tint]
  | ValueAvailableActionAroon => [Tfloat64; Tfloat64; Tint]
  | ValueAvailableActionStoch => [Tfloat64; Tfloat64; Tint]
  | ValueAvailableActionLinearReg => [Tfloat64; Tfloat64; Tfloat64; Tint]
  end.

Definition GoType_eqb (x y : GoType) : bool :=
  match x, y with
  | Tfloat64, Tfloat64 | Tint64, Tint64 | Tint, Tint | TDOHLCV, TDOHLCV => true
  | _, _ => false
  end.

Fixpoint signature_eqb (xs ys : list GoType) : bool :=
  match xs, ys with
  | [], [] => true
  | x :: xs', y :: ys' => GoType_eqb x y && signature_eqb xs' ys'
  | _, _ => false
  end.

(** The signatures occurring among the declarations, each kept once
    (at its first occurrence). *)
Fixpoint distinctSignatures (seen : list (list GoType))
    (l : list ValueAvailableAction) : list (list GoType) :=
  match l with
  | [] => []
  | a :: l' =>
      if existsb (signature_eqb (signature a)) seen
      then distinctSignatures seen l'
      else signature a :: distinctSignatures (signature a :: seen) l'
  end.

(** The spec's wording of section 4.6: the seven output
    cardinality/type combinations it lists, and the combination each
    declared callback type serves. *)
Inductive OutputShape : Type :=
| ShapeFloat
| ShapeInteger
| ShapeFullBar
| ShapeBandTriplet
| ShapeMACDTriplet
| ShapeDualLine
| ShapeSlopeInterceptTriplet.

Definition listedShapes : list OutputShape :=
  [ ShapeFloat; ShapeInteger; ShapeFullBar; ShapeBandTriplet;
    ShapeMACDTriplet; ShapeDualLine; ShapeSlopeInterceptTriplet ].

Definition shapeOf (a : ValueAvailableAction) : OutputShape :=
  match a with
  | ValueAvailableActionFloat => ShapeFloat
  | ValueAvailableActionInt => ShapeInteger
  | ValueAvailableActionDOHLCV => ShapeFullBar
  | ValueAvailableActionBollinger => ShapeBandTriplet
  | ValueAvailableActionMACD => ShapeMACDTriplet
  | ValueAvailableActionAroon => ShapeDualLine
  | ValueAvailableActionStoch => ShapeDualLine
  | ValueAvailableActionLinearReg => ShapeSlopeInterceptTriplet
  end.

(** ** Method sets and interface satisfaction *)

(** No method of the file takes a parameter, so a method is its name
    and its result type.  Go compares method names by their spelling. *)
Definition Method : Type := string * GoType.

Definition Method_eqb (m m' : Method) : bool :=
  String.eqb (fst m) (fst m') && GoType_eqb (snd m) (snd m').

Inductive StructType : Type :=
| struct_baseFloatBounds
| struct_baseIntBounds
| struct_baseIndicator
| struct_baseIndicatorWithTimePeriod
| struct_baseIndicatorWithFloatBounds
| struct_baseIndicatorWithIntBounds.

Inductive InterfaceType : Type :=
| iface_Indicator
| iface_IndicatorWithTimePeriod
| iface_IndicatorWithFloatBounds
| iface_IndicatorWithIntBounds.

(** The methods each interface declaration lists. *)
Definition interfaceMethods (i : InterfaceType) : list Method :=
  match i with
  | iface_Indicator =>
      [("ValidFromBar", Tint); ("GetLookbackPeriod", Tint); ("Length", Tint)]
  | iface_IndicatorWithTimePeriod => [("GetTimePeriod", Tint)]
  | iface_IndicatorWithFloatBounds =>
      [("MinValue", Tfloat64); ("MaxValue", Tfloat64)]
  | iface_IndicatorWithIntBounds =>
      [("MinValue", Tint64); ("MaxValue", Tint64)]
  end%string.

(** The [func (ind *S) m() r] declarations, by receiver. *)
Definition declaredMethods (s : StructType) : list Method :=
  match s with
  | struct_baseFloatBounds => [("MinValue", Tfloat64); ("MaxValue", Tfloat64)]
  | struct_baseIntBounds => [("MinValue", Tint64); ("MaxValue", Tint64)]
  | struct_baseIndicator =>
      [("ValidFromBar", Tint); ("GetLookbackPeriod", Tint); ("Length", Tint)]
  | struct_baseIndicatorWithTimePeriod => [("GetTimePeriod", Tint)]
  | struct_baseIndicatorWithFloatBounds => []
  | struct_baseIndicatorWithIntBounds => []
  end%string.

(** The embedded (anonymous) pointer fields of each struct. *)
Definition embeddedFields (s : StructType) : list StructType :=
  match s with
  | struct_baseIndicatorWithFloatBounds =>
      [struct_baseIndicator; struct_baseFloatBounds]
  | struct_baseIndicatorWithIntBounds =>
      [struct_baseIndicator; struct_baseIntBounds]
  | _ => []
  end.

Definition occurrences (name : string) (ms : list Method) : nat :=
  List.length (filter (fun m => String.eqb name (fst m)) ms).

(** Go promotes a method of an embedded field when its name is provided
    by exactly one embedded field and is not declared by the struct
    itself.  The embedded types of this file embed nothing themselves,
    so depth one is all there is. *)
Definition promotedMethods (s : StructType) : list Method :=
  let candidates := flat_map declaredMethods (embeddedFields s) in
  filter (fun m => Nat.eqb (occurrences (fst m) candidates) 1
                   && Nat.eqb (occurrences (fst m) (declaredMethods s)) 0)
         candidates.

(** The method set of the pointer type [*S]. *)
Definition methodSet (s : StructType) : list Method :=
  declaredMethods s ++ promotedMethods s.

(** A method set satisfies an interface when it has every method the
    interface lists, at the same result type. *)
Definition satisfies (ms : list Method) (i : InterfaceType) : bool :=
  forallb (fun m => existsb (Method_eqb m) ms) (interfaceMethods i).

Definition implements (s : StructType) (i : InterfaceType) : bool :=
  satisfies (methodSet s) i.

(** ** Behaviour the spec assigns to the concrete indicators *)

(** Modelled from the spec: the per-emission update of a bounds tracker.
    It is performed by the concrete indicators, which are not part of
    indicators.go.  Spec 4.2: "Update rule invoked once per emitted value
    v: min = v if v < min else min; max = v if v > max else max." *)
Definition updateFloatBounds (v : float64) (ind : ptr baseFloatBounds.t)
  : ptr baseFloatBounds.t :=
  match ind with
  | Some b =>
      let lo := baseFloatBounds.minValue b in
      let hi := baseFloatBounds.maxValue b in
      Some {| baseFloatBounds.minValue := if math.flt v lo then v else lo;
              baseFloatBounds.maxValue := if math.fgt v hi then v else hi |}
  | None => None
  end.

(** Modelled from the spec: the same update rule (spec 4.2) on the
    integer tracker; like the float one it lives in the concrete
    indicators, outside indicators.go. *)
Definition updateIntBounds (v : int64) (ind : ptr baseIntBounds.t)
  : ptr baseIntBounds.t :=
  match ind with
  | Some b =>
      let lo := baseIntBounds.minValue b in
      let hi := baseIntBounds.maxValue b in
      Some {| baseIntBounds.minValue := if v <? lo then v else lo;
              baseIntBounds.maxValue := if v >? hi then v else hi |}
  | None => None
  end.

(** Modelled from the spec: the constructor of a concrete indicator that
    requires a strictly positive lookback period.  Concrete indicators
    are not part of indicators.go, whose [newBaseIndicator] only stores
    the period.  Spec 4.1: "validation is the concrete indicator's
    responsibility using the shared error kind"; spec 7: the error is
    reported when "a lookback period outside [MinimumLookbackPeriod+1,
    MaximumLookbackPeriod] was supplied where a strictly positive period
    is required".  The result is Go's pair of indicator and error. *)
Definition newIndicatorRequiringPositiveLookback (lookbackPeriod : int)
  : ptr baseIndicator.t * option error :=
  if (lookbackPeriod <? MinimumLookbackPeriod + 1)
     || (lookbackPeriod >? MaximumLookbackPeriod)
  then (None, Some ErrLookbackPeriodMustBeGreaterThanZero)
  else (newBaseIndicator lookbackPeriod, None).

(** * Properties *)

(** ** The extreme values of the two numeric types *)

Section Float64Range.

Import math.

Lemma digits2_pos_gt (m : positive) : Z.pos m < 2 ^ Z.pos (digits2_pos m).
Proof.
  induction m as [m IH | m IH | ]; cbn [digits2_pos].
  - rewrite Pos2Z.inj_succ, Z.pow_succ_r by lia. lia.
  - rewrite Pos2Z.inj_succ, Z.pow_succ_r by lia. lia.
  - reflexivity.
Qed.

(** Validity pins the exponent of a finite datum between [emin] and
    [emax - prec], and at the top exponent the mantissa has exactly
    [prec] digits. *)
Lemma bounded_exponent (m : positive) (e : Z) :
  bounded prec emax m e = true ->
  -1074 <= e <= 971 /\ (e = 971 -> Z.pos m < 9007199254740992).
Proof.
  unfold bounded, canonical_mantissa, fexp, emin, prec, emax.
  intros Hb. apply andb_prop in Hb as [Hc He].
  apply Z.eqb_eq in Hc. apply Z.leb_le in He.
  split; [lia |].
  intros ->. pose proof (digits2_pos_gt m) as Hd.
  assert (Z.pos (digits2_pos m) = 53) as Hdig by lia.
  rewrite Hdig in Hd. lia.
Qed.

Lemma MaxFloat64_largest : largest_float64 MaxFloat64.
Proof.
  split; [vm_compute; reflexivity | split; [reflexivity |]].
  intros [s | s | | s m e] Hv Hf; try discriminate Hf; try reflexivity.
  destruct s; [reflexivity |].
  apply bounded_exponent in Hv as [He Hm].
  unfold SFleb, MaxFloat64; cbn [SFcompare].
  destruct (Z.compare_spec e 971) as [-> | Hlt | Hgt]; [| reflexivity | lia].
  specialize (Hm eq_refl).
  rewrite Pos.compare_cont_spec.
  destruct (Pos.compare_spec m 9007199254740991) as [_ | _ | Hgt];
    [reflexivity | reflexivity | lia].
Qed.

Lemma SmallestNonzeroFloat64_smallest :
  smallest_positive_float64 SmallestNonzeroFloat64.
Proof.
  split; [reflexivity | split; [reflexivity |]].
  intros [s | s | | s m e] Hv Hpos; try discriminate Hpos.
  - destruct s; [discriminate Hpos | reflexivity].
  - destruct s; [discriminate Hpos |].
    apply bounded_exponent in Hv as [He _].
    unfold SFleb, SmallestNonzeroFloat64; cbn [SFcompare].
    destruct (Z.compare_spec (-1074) e) as [<- | Hlt | Hgt]; [| reflexivity | lia].
    rewrite Pos.compare_cont_spec.
    destruct (Pos.compare_spec 1 m) as [_ | _ | Hgt];
      [reflexivity | reflexivity | lia].
Qed.

Lemma MaxInt64_largest : largest_int64 MaxInt64.
Proof. unfold largest_int64, is_int64, MinInt64, MaxInt64. split; intros; lia. Qed.

Lemma MinInt64_smallest : smallest_int64 MinInt64.
Proof. unfold smallest_int64, is_int64, MinInt64, MaxInt64. split; intros; lia. Qed.

End Float64Range.

(** ** Bounds trackers: seeds and the first recorded value *)

Section FirstValue.

Import math.

(** Two non-negative finite data that compare equal are the same datum. *)
Lemma SFcompare_Eq_positive (m m' : positive) (e e' : Z) :
  SFcompare (S754_finite false m e) (S754_finite false m' e') = Some Eq ->
  m = m' /\ e = e'.
Proof.
  cbn [SFcompare]. rewrite Pos.compare_cont_spec.
  destruct (Z.compare_spec e e') as [-> | _ | _]; try discriminate.
  destruct (Pos.compare_spec m m') as [-> | _ | _]; try discriminate.
  intros _. split; reflexivity.
Qed.

(** On the integer tracker the update rule of the spec turns the seeds
    into the first value, whatever that value is. *)
Lemma first_value_int (v : int64) :
  is_int64 v ->
  updateIntBounds v newBaseIntBounds
  = Some {| baseIntBounds.minValue := v; baseIntBounds.maxValue := v |}.
Proof.
  unfold is_int64, MinInt64, MaxInt64. intros Hv.
  cbv beta iota zeta delta [updateIntBounds newBaseIntBounds
    baseIntBounds.minValue baseIntBounds.maxValue MinInt64 MaxInt64].
  rewrite Z.gtb_ltb.
  destruct (Z.ltb_spec v 9223372036854775807) as [_ | Hhi];
    destruct (Z.ltb_spec (-9223372036854775808) v) as [_ | Hlo];
    f_equal; f_equal; lia.
Qed.

(** A strictly positive finite value is below the min seed or is the
    min seed, and is above the max seed or is the max seed. *)
Lemma positive_tightens_min (v : float64) :
  is_float64 v -> is_finite v = true -> flt fzero v = true ->
  (if flt v MaxFloat64 then v else MaxFloat64) = v.
Proof.
  intros Hv Hfin Hpos.
  destruct MaxFloat64_largest as (_ & _ & Hmax).
  specialize (Hmax v Hv Hfin).
  destruct v as [s | s | | s m e]; try discriminate Hfin.
  { destruct s; discriminate Hpos. }
  destruct s; [discriminate Hpos |].
  unfold SFleb in Hmax. unfold flt, SFltb.
  destruct (SFcompare (S754_finite false m e) MaxFloat64) as [[ | | ] | ] eqn:Hc;
    try discriminate Hmax; try reflexivity.
  apply SFcompare_Eq_positive in Hc as [-> ->]. reflexivity.
Qed.

Lemma positive_tightens_max (v : float64) :
  is_float64 v -> is_finite v = true -> flt fzero v = true ->
  (if fgt v SmallestNonzeroFloat64 then v else SmallestNonzeroFloat64) = v.
Proof.
  intros Hv Hfin Hpos.
  destruct SmallestNonzeroFloat64_smallest as (_ & _ & Hmin).
  specialize (Hmin v Hv Hpos).
  destruct v as [s | s | | s m e]; try discriminate Hfin.
  { destruct s; discriminate Hpos. }
  destruct s; [discriminate Hpos |].
  unfold SFleb in Hmin. unfold fgt, SFltb.
  destruct (SFcompare SmallestNonzeroFloat64 (S754_finite false m e))
    as [[ | | ] | ] eqn:Hc; try discriminate Hmin; try reflexivity.
  apply SFcompare_Eq_positive in Hc as [<- <-]. reflexivity.
Qed.

(** On the float tracker the update rule turns the seeds into the
    first value when that value is finite and strictly positive:
    those are the values the max seed lies below. *)
Lemma first_value_float_positive (v : float64) :
  is_float64 v -> is_finite v = true -> flt fzero v = true ->
  updateFloatBounds v newBaseFloatBounds
  = Some {| baseFloatBounds.minValue := v; baseFloatBounds.maxValue := v |}.
Proof.
  intros Hv Hfin Hpos.
  cbv beta iota zeta delta [updateFloatBounds newBaseFloatBounds
    baseFloatBounds.minValue baseFloatBounds.maxValue].
  rewrite positive_tightens_min, positive_tightens_max by assumption.
  reflexivity.
Qed.

(** A first value that is not above the max seed leaves the max seed
    in place: zero, every negative value, NaN. *)
Lemma first_value_float_max_unchanged (v : float64) :
  fgt v SmallestNonzeroFloat64 = false ->
  MaxValue (updateFloatBounds v newBaseFloatBounds) = Some SmallestNonzeroFloat64.
Proof.
  intros Hle.
  cbv beta iota zeta delta [updateFloatBounds newBaseFloatBounds
    baseFloatBounds.minValue baseFloatBounds.maxValue].
  rewrite Hle. reflexivity.
Qed.

End FirstValue.

(** C1.  The claim: on both trackers, the update rule applied to a fresh
    tracker with any first value [v] gives [MinValue() == v] and
    [MaxValue() == v], zero and negative values included.  Evaluated on
    the float tracker at the first values [-1.0] and [0.0]: the minimum
    becomes the value, but the maximum stays at the seed
    [math.SmallestNonzeroFloat64], which is positive and equal to neither
    value.  (That the integer tracker does behave as claimed is
    [first_value_int].) *)
Theorem first_value_float_max_stays_at_seed :
  math.is_float64 math.fminus_one /\
  MinValue (updateFloatBounds math.fminus_one newBaseFloatBounds)
    = Some math.fminus_one /\
  MaxValue (updateFloatBounds math.fminus_one newBaseFloatBounds)
    = Some math.SmallestNonzeroFloat64 /\
  math.feq math.SmallestNonzeroFloat64 math.fminus_one = false /\
  MinValue (updateFloatBounds math.fzero newBaseFloatBounds) = Some math.fzero /\
  MaxValue (updateFloatBounds math.fzero newBaseFloatBounds)
    = Some math.SmallestNonzeroFloat64 /\
  math.feq math.SmallestNonzeroFloat64 math.fzero = false.
Proof.
  split; [vm_compute; reflexivity |].
  split; [reflexivity |].
  split; [apply first_value_float_max_unchanged; reflexivity |].
  split; [reflexivity |].
  split; [reflexivity |].
  split; [apply first_value_float_max_unchanged; reflexivity |].
  reflexivity.
Qed.

(** C2.  The float tracker starts with its minimum at the largest finite
    [float64] and its maximum at the smallest positive [float64]; the
    integer tracker starts with its minimum at the largest [int64] and
    its maximum at the smallest [int64]. *)
Theorem bounds_seeds :
  (MinValue newBaseFloatBounds = Some math.MaxFloat64 /\
   math.largest_float64 math.MaxFloat64 /\
   MaxValue newBaseFloatBounds = Some math.SmallestNonzeroFloat64 /\
   math.smallest_positive_float64 math.SmallestNonzeroFloat64) /\
  (MinValue newBaseIntBounds = Some math.MaxInt64 /\
   math.largest_int64 math.MaxInt64 /\
   MaxValue newBaseIntBounds = Some math.MinInt64 /\
   math.smallest_int64 math.MinInt64).
Proof.
  split; (split; [reflexivity | split; [| split; [reflexivity |]]]).
  - exact MaxFloat64_largest.
  - exact SmallestNonzeroFloat64_smallest.
  - exact MaxInt64_largest.
  - exact MinInt64_smallest.
Qed.

(** C9.  Before any value is recorded the bounds of either tracker are
    inverted: [MinValue() > MaxValue()], so [min <= max] does not hold
    on a fresh tracker. *)
Theorem fresh_bounds_inverted :
  (exists lo hi : float64,
     MinValue newBaseFloatBounds = Some lo /\
     MaxValue newBaseFloatBounds = Some hi /\
     math.fgt lo hi = true /\ SFleb lo hi = false) /\
  (exists lo hi : int64,
     MinValue newBaseIntBounds = Some lo /\
     MaxValue newBaseIntBounds = Some hi /\
     lo > hi /\ ~ lo <= hi).
Proof.
  split.
  - exists math.MaxFloat64, math.SmallestNonzeroFloat64.
    repeat split; reflexivity.
  - exists math.MaxInt64, math.MinInt64.
    split; [reflexivity | split; [reflexivity |]].
    unfold math.MaxInt64, math.MinInt64. lia.
Qed.

(** ** Base indicator state *)

(** C3.  For a lookback period [p] with [0 < p <= MaximumLookbackPeriod],
    a freshly constructed indicator, the base state or either composite
    base, has [ValidFromBar() == -1] and [Length() == 0]. *)
Theorem fresh_indicator_not_yet_valid (p : int) :
  0 < p <= MaximumLookbackPeriod ->
  (ValidFromBar (newBaseIndicator p) = Some (-1) /\
   Length (newBaseIndicator p) = Some 0) /\
  (ValidFromBar (newBaseIndicatorWithFloatBounds p) = Some (-1) /\
   Length (newBaseIndicatorWithFloatBounds p) = Some 0) /\
  (ValidFromBar (newBaseIndicatorWithIntBounds p) = Some (-1) /\
   Length (newBaseIndicatorWithIntBounds p) = Some 0).
Proof.
  intros _. repeat split; reflexivity.
Qed.

Lemma fresh_indicator_not_yet_valid_at_14 :
  0 < 14 <= MaximumLookbackPeriod /\
  (ValidFromBar (newBaseIndicator 14) = Some (-1) /\
   Length (newBaseIndicator 14) = Some 0) /\
  (ValidFromBar (newBaseIndicatorWithFloatBounds 14) = Some (-1) /\
   Length (newBaseIndicatorWithFloatBounds 14) = Some 0) /\
  (ValidFromBar (newBaseIndicatorWithIntBounds 14) = Some (-1) /\
   Length (newBaseIndicatorWithIntBounds 14) = Some 0).
Proof.
  split.
  - unfold MaximumLookbackPeriod; lia.
  - apply (fresh_indicator_not_yet_valid 14). unfold MaximumLookbackPeriod; lia.
Defined.

(** C10.  Constructing the base state never fails and neither checks
    nor clamps the period: for every integer [p], non-positive and
    above [MaximumLookbackPeriod] included, the constructor returns a
    non-nil base state that stores [p], and [GetLookbackPeriod()]
    returns [p]. *)
Theorem base_construction_stores_any_period (p : int) :
  exists s : baseIndicator.t,
    newBaseIndicator p = Some s /\
    baseIndicator.lookbackPeriod s = p /\
    GetLookbackPeriod (newBaseIndicator p) = Some p.
Proof.
  eexists. split; [reflexivity | split; reflexivity].
Qed.

(** Inside the accepted range the validating constructor hands back
    exactly what [newBaseIndicator] builds, with a nil error. *)
Lemma positive_lookback_accepted (p : int) :
  MinimumLookbackPeriod + 1 <= p <= MaximumLookbackPeriod ->
  newIndicatorRequiringPositiveLookback p = (newBaseIndicator p, None).
Proof.
  unfold newIndicatorRequiringPositiveLookback. intros [Hlo Hhi].
  rewrite Z.gtb_ltb.
  destruct (Z.ltb_spec p (MinimumLookbackPeriod + 1)) as [Hlt | _]; [lia |].
  destruct (Z.ltb_spec MaximumLookbackPeriod p) as [Hgt | _]; [lia |].
  reflexivity.
Qed.

(** C4.  Constructing an indicator that requires a strictly positive
    lookback period with [lookbackPeriod <= 0] fails: no indicator is
    returned, and the error handed to the caller is
    [ErrLookbackPeriodMustBeGreaterThanZero]. *)
Theorem nonpositive_lookback_rejected (p : int) :
  p <= 0 ->
  newIndicatorRequiringPositiveLookback p
  = (None, Some ErrLookbackPeriodMustBeGreaterThanZero).
Proof.
  intros Hp. unfold newIndicatorRequiringPositiveLookback, MinimumLookbackPeriod.
  destruct (Z.ltb_spec p (0 + 1)) as [_ | Hge]; [reflexivity | lia].
Qed.

Lemma nonpositive_lookback_rejected_at_minus_3 :
  -3 <= 0 /\
  newIndicatorRequiringPositiveLookback (-3)
  = (None, Some ErrLookbackPeriodMustBeGreaterThanZero).
Proof.
  split; [lia | apply (nonpositive_lookback_rejected (-3)); lia].
Defined.

(** C7.  The lookback limits are 0 and 100000. *)
Theorem lookback_limits :
  MinimumLookbackPeriod = 0 /\ MaximumLookbackPeriod = 100000.
Proof.
  split; reflexivity.
Qed.

(** ** Time-period decorator and composite bases *)

(** C8.  For every integer [t], [GetTimePeriod()] on the decorator
    constructed with [t] returns [t]; the decorator holds nothing else,
    so this is so next to a base state of any lookback period [p],
    whose own accessor keeps returning [p]. *)
Theorem time_period_round_trip (t p : int) :
  GetTimePeriod (newBaseIndicatorWithTimePeriod t) = Some t /\
  GetLookbackPeriod (newBaseIndicator p) = Some p.
Proof.
  split; reflexivity.
Qed.

(** C6.  For every lookback period [p], each composite base answers the
    whole [Indicator] contract ([ValidFromBar() == -1],
    [GetLookbackPeriod() == p], [Length() == 0]) and the matching bounds
    contract, [MinValue()] and [MaxValue()] returning the seeds of a
    fresh tracker. *)
Theorem composite_base_exposes_both_contracts (p : int) :
  (ValidFromBar (newBaseIndicatorWithFloatBounds p) = Some (-1) /\
   GetLookbackPeriod (newBaseIndicatorWithFloatBounds p) = Some p /\
   Length (newBaseIndicatorWithFloatBounds p) = Some 0 /\
   MinValue (newBaseIndicatorWithFloatBounds p) = MinValue newBaseFloatBounds /\
   MinValue (newBaseIndicatorWithFloatBounds p) = Some math.MaxFloat64 /\
   MaxValue (newBaseIndicatorWithFloatBounds p) = MaxValue newBaseFloatBounds /\
   MaxValue (newBaseIndicatorWithFloatBounds p) = Some math.SmallestNonzeroFloat64) /\
  (ValidFromBar (newBaseIndicatorWithIntBounds p) = Some (-1) /\
   GetLookbackPeriod (newBaseIndicatorWithIntBounds p) = Some p /\
   Length (newBaseIndicatorWithIntBounds p) = Some 0 /\
   MinValue (newBaseIndicatorWithIntBounds p) = MinValue newBaseIntBounds /\
   MinValue (newBaseIndicatorWithIntBounds p) = Some math.MaxInt64 /\
   MaxValue (newBaseIndicatorWithIntBounds p) = MaxValue newBaseIntBounds /\
   MaxValue (newBaseIndicatorWithIntBounds p) = Some math.MinInt64).
Proof.
  repeat split; reflexivity.
Qed.

(** ** Value-available callback types *)

Lemma declaredActions_complete (a : ValueAvailableAction) : In a declaredActions.
Proof.
  destruct a; cbn; tauto.
Qed.

Lemma declaredActions_NoDup : NoDup declaredActions.
Proof.
  unfold declaredActions.
  repeat (constructor; [cbn; intuition discriminate |]).
  constructor.
Qed.

(** Two declared types serve the same listed combination only when they
    are the same type or the two dual-line types. *)
Definition sameOrDualLinePair (a b : ValueAvailableAction) : Prop :=
  a = b \/
  (a = ValueAvailableActionAroon /\ b = ValueAvailableActionStoch) \/
  (a = ValueAvailableActionStoch /\ b = ValueAvailableActionAroon).

(** C5, as stated, fails: the declarations number eight, not seven
    (nor do their distinct signatures number seven), and they are not
    one per listed combination, since [ValueAvailableActionAroon] and
    [ValueAvailableActionStoch] are two types of the dual-line
    combination. *)
Lemma seven_callback_shapes_refuted :
  length declaredActions <> 7%nat /\
  length (distinctSignatures [] declaredActions) <> 7%nat /\
  ValueAvailableActionAroon <> ValueAvailableActionStoch /\
  In ValueAvailableActionAroon declaredActions /\
  In ValueAvailableActionStoch declaredActions /\
  shapeOf ValueAvailableActionAroon = shapeOf ValueAvailableActionStoch /\
  ~ (length declaredActions = 7%nat /\
     forall a b, In a declaredActions -> In b declaredActions ->
                 shapeOf a = shapeOf b -> a = b).
Proof.
  split; [discriminate |].
  split; [discriminate |].
  split; [discriminate |].
  split; [apply declaredActions_complete |].
  split; [apply declaredActions_complete |].
  split; [reflexivity |].
  intros [Hlen _]. discriminate Hlen.
Qed.

(** C5, amended.  Eight distinct callback types are declared, over five
    distinct signatures.  They serve exactly the seven listed output
    combinations, one type per combination except the dual-line one,
    which has two types of the same signature,
    [ValueAvailableActionAroon] and [ValueAvailableActionStoch]. *)
Theorem eight_callback_types_seven_shapes :
  length declaredActions = 8%nat /\
  length (distinctSignatures [] declaredActions) = 5%nat /\
  NoDup declaredActions /\
  (forall a, In a declaredActions) /\
  length listedShapes = 7%nat /\
  NoDup listedShapes /\
  (forall s, In s listedShapes) /\
  (forall s, exists a, In a declaredActions /\ shapeOf a = s) /\
  (forall a b, shapeOf a = shapeOf b -> sameOrDualLinePair a b) /\
  shapeOf ValueAvailableActionAroon = ShapeDualLine /\
  shapeOf ValueAvailableActionStoch = ShapeDualLine /\
  signature ValueAvailableActionAroon = signature ValueAvailableActionStoch.
Proof.
  split; [reflexivity |].
  split; [reflexivity |].
  split; [exact declaredActions_NoDup |].
  split; [exact declaredActions_complete |].
  split; [reflexivity |].
  split.
  { unfold listedShapes.
    repeat (constructor; [cbn; intuition discriminate |]).
    constructor. }
  split; [intros s; destruct s; cbn; tauto |].
  split.
  { intros s; destruct s;
      [ exists ValueAvailableActionFloat
      | exists ValueAvailableActionInt
      | exists ValueAvailableActionDOHLCV
      | exists ValueAvailableActionBollinger
      | exists ValueAvailableActionMACD
      | exists ValueAvailableActionAroon
      | exists ValueAvailableActionLinearReg ];
      (split; [apply declaredActions_complete | reflexivity]). }
  split.
  { intros a b H. unfold sameOrDualLinePair.
    destruct a, b; try discriminate H; auto. }
  repeat split; reflexivity.
Qed.

(** * Further properties of the source *)

(** ** Error values *)

(** The four error values carry four different messages: the message
    alone tells which error was returned. *)
Theorem Error_message_identifies_error (e e' : error) :
  Error e = Error e' -> e = e'.
Proof.
  destruct e, e'; intros H; try reflexivity;
    apply String.eqb_eq in H; vm_compute in H; discriminate H.
Qed.

Lemma Error_message_identifies_error_at_nil_action :
  Error ErrValueAvailableActionIsNil = Error ErrValueAvailableActionIsNil /\
  ErrValueAvailableActionIsNil = ErrValueAvailableActionIsNil.
Proof.
  split; [reflexivity |].
  apply (Error_message_identifies_error
           ErrValueAvailableActionIsNil ErrValueAvailableActionIsNil).
  reflexivity.
Defined.

(** ** Comparisons against the seeds of a fresh tracker *)

Section SeedComparisons.

Import math.

(** Go's [v > MaxValue()] on a fresh float tracker is false exactly for
    the seed itself, for NaN, and for every value that is zero or
    negative (minus infinity included). *)
Theorem fresh_float_max_not_exceeded (v : float64) :
  is_float64 v ->
  exists hi : float64,
    MaxValue newBaseFloatBounds = Some hi /\
    (fgt v hi = false <->
     v = hi \/ v = S754_nan \/ SFleb v fzero = true).
Proof.
  intros Hv. exists SmallestNonzeroFloat64. split; [reflexivity |].
  destruct SmallestNonzeroFloat64_smallest as (_ & _ & Hmin).
  destruct v as [s | s | | s m e].
  - split; [intros _ | reflexivity]. right; right. destruct s; reflexivity.
  - destruct s.
    + split; [intros _ | reflexivity]. right; right. reflexivity.
    + split; [intros H; discriminate H |].
      intros [H | [H | H]]; discriminate H.
  - split; [intros _ | reflexivity]. right; left. reflexivity.
  - destruct s.
    + split; [intros _ | reflexivity]. right; right. reflexivity.
    + assert (flt fzero (S754_finite false m e) = true) as Hpos by reflexivity.
      specialize (Hmin _ Hv Hpos). unfold SFleb in Hmin. unfold fgt, SFltb.
      destruct (SFcompare SmallestNonzeroFloat64 (S754_finite false m e))
        as [[ | | ] | ] eqn:Hc; try discriminate Hmin.
      * apply SFcompare_Eq_positive in Hc as [<- <-].
        split; [intros _; left; reflexivity | reflexivity].
      * split; [intros H; discriminate H |].
        intros [H | [H | H]]; [| discriminate H | discriminate H].
        rewrite H in Hc. vm_compute in Hc. discriminate Hc.
Qed.

Lemma fresh_float_max_not_exceeded_at_minus_one :
  is_float64 fminus_one /\
  exists hi : float64,
    MaxValue newBaseFloatBounds = Some hi /\
    (fgt fminus_one hi = false <->
     fminus_one = hi \/ fminus_one = S754_nan \/ SFleb fminus_one fzero = true).
Proof.
  split.
  - vm_compute; reflexivity.
  - apply (fresh_float_max_not_exceeded fminus_one). vm_compute; reflexivity.
Defined.

(** Go's [v < MinValue()] on a fresh float tracker is false exactly for
    the seed itself, for NaN, and for plus infinity: every other
    [float64], of either sign, is below the seed. *)
Theorem fresh_float_min_not_undercut (v : float64) :
  is_float64 v ->
  exists lo : float64,
    MinValue newBaseFloatBounds = Some lo /\
    (flt v lo = false <->
     v = lo \/ v = S754_nan \/ v = S754_infinity false).
Proof.
  intros Hv. exists MaxFloat64. split; [reflexivity |].
  destruct MaxFloat64_largest as (_ & _ & Hmax).
  destruct v as [s | s | | s m e].
  - split; [intros H; destruct s; discriminate H |].
    intros [H | [H | H]]; discriminate H.
  - destruct s.
    + split; [intros H; discriminate H |].
      intros [H | [H | H]]; discriminate H.
    + split; [intros _ | reflexivity]. right; right. reflexivity.
  - split; [intros _ | reflexivity]. right; left. reflexivity.
  - destruct s.
    + split; [intros H; discriminate H |].
      intros [H | [H | H]]; discriminate H.
    + specialize (Hmax _ Hv eq_refl). unfold SFleb in Hmax. unfold flt, SFltb.
      destruct (SFcompare (S754_finite false m e) MaxFloat64)
        as [[ | | ] | ] eqn:Hc; try discriminate Hmax.
      * apply SFcompare_Eq_positive in Hc as [-> ->].
        split; [intros _; left; reflexivity | reflexivity].
      * split; [intros H; discriminate H |].
        intros [H | [H | H]]; [| discriminate H | discriminate H].
        rewrite H in Hc. vm_compute in Hc. discriminate Hc.
Qed.

Lemma fresh_float_min_not_undercut_at_plus_infinity :
  is_float64 (S754_infinity false) /\
  exists lo : float64,
    MinValue newBaseFloatBounds = Some lo /\
    (flt (S754_infinity false) lo = false <->
     S754_infinity false = lo \/ S754_infinity false = S754_nan \/
     S754_infinity false = S754_infinity false).
Proof.
  split.
  - reflexivity.
  - apply (fresh_float_min_not_undercut (S754_infinity false)). reflexivity.
Defined.

(** On a fresh integer tracker an [int64] value fails [v < MinValue()]
    only when it is the min seed and fails [v > MaxValue()] only when it
    is the max seed. *)
Theorem fresh_int_seeds_lose_to_every_other_value (v : int64) :
  is_int64 v ->
  exists lo hi : int64,
    MinValue newBaseIntBounds = Some lo /\
    MaxValue newBaseIntBounds = Some hi /\
    ((v <? lo) = false <-> v = lo) /\
    ((v >? hi) = false <-> v = hi).
Proof.
  unfold is_int64. intros Hv. exists MaxInt64, MinInt64.
  split; [reflexivity | split; [reflexivity |]].
  rewrite Z.gtb_ltb, !Z.ltb_ge. unfold MinInt64, MaxInt64 in *. lia.
Qed.

Lemma fresh_int_seeds_lose_to_every_other_value_at_0 :
  is_int64 0 /\
  exists lo hi : int64,
    MinValue newBaseIntBounds = Some lo /\
    MaxValue newBaseIntBounds = Some hi /\
    ((0 <? lo) = false <-> 0 = lo) /\
    ((0 >? hi) = false <-> 0 = hi).
Proof.
  split.
  - unfold is_int64, MinInt64, MaxInt64; lia.
  - apply (fresh_int_seeds_lose_to_every_other_value 0).
    unfold is_int64, MinInt64, MaxInt64; lia.
Defined.

End SeedComparisons.

(** ** Nil pointers behind a composite base *)

Lemma promote_returns {S A B : Type} (field : S -> ptr A)
    (method : ptr A -> option B) (ind : ptr S) (r : B) :
  promote field method ind = Some r <->
  exists s, ind = Some s /\ method (field s) = Some r.
Proof.
  destruct ind as [s | ]; cbn.
  - split.
    + intros H. exists s. split; [reflexivity | exact H].
    + intros (s' & Hs & H). injection Hs as <-. exact H.
  - split; [discriminate | intros (s' & Hs & _); discriminate Hs].
Qed.

Lemma option_map_panics {A B : Type} (f : A -> B) (x : option A) :
  option_map f x = None <-> x = None.
Proof.
  destruct x; cbn; split; intros H; try discriminate H; reflexivity.
Qed.

(** A call of a promoted accessor on a composite base panics exactly
    when the composite pointer is nil or the embedded pointer the method
    comes from is nil.  The other embedded pointer plays no part: the
    [Indicator] accessors work over a nil tracker, and the bounds
    accessors over a nil base state. *)
Theorem composite_accessor_panics_iff_nil :
  (forall c : ptr baseIndicatorWithFloatBounds.t,
     let nilBase := c = None \/ exists s, c = Some s /\
                      baseIndicatorWithFloatBounds.baseIndicator s = None in
     let nilBounds := c = None \/ exists s, c = Some s /\
                      baseIndicatorWithFloatBounds.baseFloatBounds s = None in
     (ValidFromBar c = None <-> nilBase) /\
     (GetLookbackPeriod c = None <-> nilBase) /\
     (Length c = None <-> nilBase) /\
     (MinValue c = None <-> nilBounds) /\
     (MaxValue c = None <-> nilBounds)) /\
  (forall c : ptr baseIndicatorWithIntBounds.t,
     let nilBase := c = None \/ exists s, c = Some s /\
                      baseIndicatorWithIntBounds.baseIndicator s = None in
     let nilBounds := c = None \/ exists s, c = Some s /\
                      baseIndicatorWithIntBounds.baseIntBounds s = None in
     (ValidFromBar c = None <-> nilBase) /\
     (GetLookbackPeriod c = None <-> nilBase) /\
     (Length c = None <-> nilBase) /\
     (MinValue c = None <-> nilBounds) /\
     (MaxValue c = None <-> nilBounds)).
Proof.
  split; intros [[b t] | ]; cbn;
    repeat split;
    try (intros _; left; reflexivity);
    try (intros H; right; eexists; split; [reflexivity |];
         cbn; apply option_map_panics in H; exact H);
    try (intros [H | (s & Hs & H)]; [discriminate H |];
         injection Hs as <-; cbn in H; rewrite H; reflexivity).
Qed.

(** ** Signatures of the callback types *)

(** Every callback type takes [streamBarIndex int] as its last
    parameter, after one to three data items that all have one and the
    same type, which is not [int]. *)
Theorem callback_signature_form (a : ValueAvailableAction) :
  exists (t : GoType) (n : nat),
    signature a = repeat t n ++ [Tint] /\
    t <> Tint /\ (1 <= n <= 3)%nat.
Proof.
  destruct a;
    [ exists Tfloat64, 1%nat | exists Tint64, 1%nat | exists TDOHLCV, 1%nat
    | exists Tfloat64, 3%nat | exists Tfloat64, 3%nat
    | exists Tfloat64, 2%nat | exists Tfloat64, 2%nat
    | exists Tfloat64, 3%nat ];
    (split; [reflexivity | split; [discriminate | lia]]).
Qed.

(** Two callback types have the same signature, and so convert into one
    another, exactly when they are the same type, or both among
    Bollinger, MACD and LinearReg, or both among Aroon and Stoch. *)
Theorem callback_signature_classes (a b : ValueAvailableAction) :
  signature a = signature b <->
  a = b \/
  (In a [ValueAvailableActionBollinger; ValueAvailableActionMACD;
         ValueAvailableActionLinearReg] /\
   In b [ValueAvailableActionBollinger; ValueAvailableActionMACD;
         ValueAvailableActionLinearReg]) \/
  (In a [ValueAvailableActionAroon; ValueAvailableActionStoch] /\
   In b [ValueAvailableActionAroon; ValueAvailableActionStoch]).
Proof.
  split.
  - destruct a, b; cbn; intros H; try discriminate H; tauto.
  - intros [-> | [[Ha Hb] | [Ha Hb]]]; [reflexivity | |];
      cbn in Ha, Hb;
      repeat (destruct Ha as [<- | Ha]; [| try contradiction]);
      repeat (destruct Hb as [<- | Hb]; [| try contradiction]);
      reflexivity.
Qed.

(** ** Which struct implements which interface *)

Lemma GoType_eqb_eq (x y : GoType) : GoType_eqb x y = true <-> x = y.
Proof.
  destruct x, y; cbn; split; intros H; try reflexivity; discriminate H.
Qed.

Lemma Method_eqb_eq (m m' : Method) : Method_eqb m m' = true <-> m = m'.
Proof.
  destruct m as [n t], m' as [n' t']. unfold Method_eqb; cbn.
  rewrite andb_true_iff, String.eqb_eq, GoType_eqb_eq.
  split; [intros [-> ->]; reflexivity | intros H; injection H; auto].
Qed.

(** What [satisfies] computes: membership of every listed method. *)
Lemma satisfies_In (ms : list Method) (i : InterfaceType) :
  satisfies ms i = true <-> forall m, In m (interfaceMethods i) -> In m ms.
Proof.
  unfold satisfies. rewrite forallb_forall.
  split; intros H m Hm; specialize (H m Hm).
  - apply existsb_exists in H as (m' & Hin & Heq).
    apply Method_eqb_eq in Heq. subst m'. exact Hin.
  - apply existsb_exists. exists m. split; [exact H | apply Method_eqb_eq; reflexivity].
Qed.

(** In a list with one entry per name, a name has one result type. *)
Lemma unique_name_one_type (ms : list Method) (n : string) (t t' : GoType) :
  NoDup (map fst ms) -> In (n, t) ms -> In (n, t') ms -> t = t'.
Proof.
  induction ms as [| [n0 t0] ms IH]; cbn; intros Hnd Ht Ht'; [contradiction |].
  inversion Hnd as [| ? ? Hnotin Hnd']; subst.
  destruct Ht as [Ht | Ht], Ht' as [Ht' | Ht'].
  - congruence.
  - injection Ht as -> ->. exfalso. apply Hnotin.
    apply (in_map fst) in Ht'. exact Ht'.
  - injection Ht' as -> ->. exfalso. apply Hnotin.
    apply (in_map fst) in Ht. exact Ht.
  - exact (IH Hnd' Ht Ht').
Qed.

(** Every method set of the file has one method per name: nothing is
    promoted twice and no declaration shadows a promoted method. *)
Lemma methodSet_unique_names (s : StructType) : NoDup (map fst (methodSet s)).
Proof.
  destruct s; vm_compute;
    repeat (constructor; [cbn; intuition discriminate |]); constructor.
Qed.

(** The pointer type of each struct implements these interfaces and no
    others: each leaf struct its own interface, and each composite base
    both [Indicator] and the bounds interface of its flavour, but not
    the bounds interface of the other flavour and not
    [IndicatorWithTimePeriod]. *)
Theorem implements_exactly (s : StructType) (i : InterfaceType) :
  implements s i = true <->
  In (s, i)
     [ (struct_baseIndicator, iface_Indicator);
       (struct_baseIndicatorWithTimePeriod, iface_IndicatorWithTimePeriod);
       (struct_baseFloatBounds, iface_IndicatorWithFloatBounds);
       (struct_baseIntBounds, iface_IndicatorWithIntBounds);
       (struct_baseIndicatorWithFloatBounds, iface_Indicator);
       (struct_baseIndicatorWithFloatBounds, iface_IndicatorWithFloatBounds);
       (struct_baseIndicatorWithIntBounds, iface_Indicator);
       (struct_baseIndicatorWithIntBounds, iface_IndicatorWithIntBounds) ].
Proof.
  destruct s, i; vm_compute; split; intros H;
    try reflexivity; try discriminate H; try tauto;
    repeat (destruct H as [H | H]; [discriminate H |]); contradiction.
Qed.

(** No type implements both bounds interfaces: they list [MinValue] at
    two result types, and a method set has one method per name. *)
Theorem bounds_interfaces_exclude_each_other (ms : list Method) :
  NoDup (map fst ms) ->
  satisfies ms iface_IndicatorWithFloatBounds = true ->
  satisfies ms iface_IndicatorWithIntBounds = false.
Proof.
  intros Hnd Hf.
  destruct (satisfies ms iface_IndicatorWithIntBounds) eqn:Hi; [| reflexivity].
  exfalso.
  rewrite satisfies_In in Hf, Hi.
  assert (In ("MinValue"%string, Tfloat64) ms) as H1 by (apply Hf; cbn; tauto).
  assert (In ("MinValue"%string, Tint64) ms) as H2 by (apply Hi; cbn; tauto).
  pose proof (unique_name_one_type _ _ _ _ Hnd H1 H2) as Habs.
  discriminate Habs.
Qed.

Lemma bounds_interfaces_exclude_each_other_at_float_composite :
  NoDup (map fst (methodSet struct_baseIndicatorWithFloatBounds)) /\
  satisfies (methodSet struct_baseIndicatorWithFloatBounds)
            iface_IndicatorWithFloatBounds = true /\
  satisfies (methodSet struct_baseIndicatorWithFloatBounds)
            iface_IndicatorWithIntBounds = false.
Proof.
  assert (NoDup (map fst (methodSet struct_baseIndicatorWithFloatBounds))) as Hnd.
  { vm_compute. repeat (constructor; [cbn; intuition discriminate |]). constructor. }
  split; [exact Hnd |].
  split; [reflexivity |].
  apply (bounds_interfaces_exclude_each_other
           (methodSet struct_baseIndicatorWithFloatBounds) Hnd).
  reflexivity.
Defined.
